(** * aws-cdk-infra: the SLE infrastructure stack and its naming scheme

    A shallow embedding of [src/index.ts] (the [InfraStack] construct) and of
    the application entry point, followed by the properties of the
    resource-naming and permission-scoping scheme.

    The construct library itself (aws-cdk-lib) is not part of the repository.
    A construct is embedded as the record of the properties the source hands
    to its constructor; an attribute the library computes for a construct
    ([bucketArn], [projectArn], ...) is kept as a symbolic reference to that
    construct and is never given a value here.  Checks the library may run
    on the properties it is handed are likewise outside the embedding: what
    is modelled is what the source itself computes and declares. *)

From Stdlib Require Import Ascii.
From stdpp Require Import base strings gmap list.

(** ** Values *)

(** A string the source hands to a construct property: either a string built
    by the source itself (a literal or a template literal over its own
    variables), or an attribute of a construct of the stack, possibly followed
    by a literal suffix as in [`${infraArtifactBucket.bucketArn}/*`]. *)
Inductive TokenString :=
| Lit (s : string)
| Attr (construct attribute suffix : string).

(** JavaScript's [v || d] for a context value [v] that is [undefined] ([None])
    or a string: [undefined] and the empty string are falsy. *)
Definition js_or (v : option string) (d : string) : string :=
  match v with
  | Some s => if decide (s = "") then d else s
  | None => d
  end.

(** ** Construct properties, as the source writes them *)

Inductive RemovalPolicy := RETAIN | DESTROY.

Module dynamodb.
Inductive AttributeType := STRING | NUMBER | BINARY.
Inductive BillingMode := PAY_PER_REQUEST | PROVISIONED.
Record Table := {
  tableName : string;
  partitionKey : string * AttributeType;
  sortKey : string * AttributeType;
  billingMode : BillingMode;
  deletionProtection : bool;
  pointInTimeRecoveryEnabled : bool;
  removalPolicy : RemovalPolicy
}.
End dynamodb.

Module s3.
Inductive BlockPublicAccess := BLOCK_ALL.
Record Bucket := {
  bucketName : string;
  versioned : option bool;
  blockPublicAccess : BlockPublicAccess;
  removalPolicy : RemovalPolicy
}.
End s3.

Module codestarconnections.
Record CfnConnection := {
  connectionName : string;
  providerType : string
}.
End codestarconnections.

Module iam.
Record PolicyStatement := {
  sid : option string;
  actions : list string;
  resources : list TokenString
}.
(** [assumedBy] lists the service principals (one for a
    [ServicePrincipal], several for a [CompositePrincipal]); [policy] is
    what [addToPolicy] has accumulated. *)
Record Role := {
  assumedBy : list string;
  policy : list PolicyStatement
}.
End iam.

Module codebuild.
Inductive BuildImage := STANDARD_7_0.
Inductive ComputeType := SMALL.
Record PipelineProject := {
  projectName : string;
  description : string;
  role : string;
  timeoutMinutes : nat;
  buildSpec : string;
  buildImage : BuildImage;
  computeType : ComputeType;
  privileged : bool;
  environmentVariables : list (string * TokenString)
}.
End codebuild.

Module codepipeline.
(** The two [new codepipeline.Artifact()] objects of the source. *)
Inductive Artifact := infraSourceOutput | infraBuildOutput.

Inductive Action :=
| CodeStarConnectionsSourceAction
    (actionName owner repo : string) (connectionArn : TokenString)
    (branch : string) (output : Artifact) (triggerOnPush : bool)
| CodeBuildAction
    (actionName project : string) (input : Artifact) (outputs : list Artifact)
| CloudFormationCreateReplaceChangeSetAction
    (actionName stackName changeSetName : string) (adminPermissions : bool)
    (deploymentRole : string) (templatePath : Artifact * string)
    (runOrder : nat)
| ManualApprovalAction (actionName : string) (runOrder : nat)
| CloudFormationExecuteChangeSetAction
    (actionName stackName changeSetName : string) (runOrder : nat).

Record Stage := {
  stageName : string;
  actions : list Action
}.

Record Pipeline := {
  pipelineName : string;
  role : string;
  artifactBucket : string;
  stages : list Stage
}.
End codepipeline.

Module cdk.
Record CfnOutput := {
  description : string;
  value : TokenString
}.
End cdk.

Inductive Construct :=
| CTable (t : dynamodb.Table)
| CBucket (b : s3.Bucket)
| CConnection (c : codestarconnections.CfnConnection)
| CRole (r : iam.Role)
| CProject (p : codebuild.PipelineProject)
| CPipeline (p : codepipeline.Pipeline)
| COutput (o : cdk.CfnOutput).

(** ** The stack under construction *)

(** [this] of the [InfraStack] constructor.  [region], [account] and
    [context] are what [super(scope, id, props)] resolves from the scope the
    stack is created in; [children] are the constructs declared so far with
    their construct ids, in declaration order; [tags] are the
    [cdk.Tags.of(c).add(k, v)] calls so far. *)
Record Stack := {
  stackId : string;
  region : string;
  account : string;
  context : gmap string string;
  children : list (string * Construct);
  tags : list (string * (string * string))
}.

(** The [scope] argument as the stack sees it: the context of the
    application the stack is added to, and the region and account the library
    resolves for a stack created there (those of [props.env], or its
    placeholders for the deploy-time values). *)
Record App := {
  appContext : gmap string string;
  appRegion : string;
  appAccount : string
}.

Record InfraStackProps := { environment : string }.

(** ** Constructor bodies: state passing over [Stack], with failure *)

(** The failures the specification names; no statement of the source raises
    one. *)
Inductive BuildError := InvalidEnvironment | NameTooLong | NameCollision.

Inductive Outcome (A : Type) :=
| Returned (a : A)
| Thrown (err : BuildError).
Arguments Returned {A} a.
Arguments Thrown {A} err.

Definition M (A : Type) : Type := Stack → Outcome (A * Stack).

#[global] Instance M_ret : MRet M := λ A a this, Returned (a, this).

#[global] Instance M_bind : MBind M := λ A B k m this,
  match m this with
  | Returned (a, this') => k a this'
  | Thrown err => Thrown err
  end.

Definition this_region : M string := λ this, Returned (region this, this).
Definition this_account : M string := λ this, Returned (account this, this).

(** [this.node.tryGetContext(key)] *)
Definition tryGetContext (key : string) : M (option string) :=
  λ this, Returned (context this !! key, this).

(** [new C(this, id, props)]: the construct joins the stack; its handle is
    its construct id. *)
Definition new_ (id : string) (c : Construct) : M string :=
  λ this, Returned (id,
    {| stackId := stackId this; region := region this;
       account := account this; context := context this;
       children := children this ++ [(id, c)]; tags := tags this |}).

(** [cdk.Tags.of(c).add(key, value)] *)
Definition Tags_add (c key value : string) : M unit :=
  λ this, Returned (tt,
    {| stackId := stackId this; region := region this;
       account := account this; context := context this;
       children := children this;
       tags := tags this ++ [(c, (key, value))] |}).

Definition add_statement (role : string) (statement : iam.PolicyStatement)
    (child : string * Construct) : string * Construct :=
  match child with
  | (id, CRole r) =>
      if decide (id = role)
      then (id, CRole {| iam.assumedBy := iam.assumedBy r;
                         iam.policy := iam.policy r ++ [statement] |})
      else child
  | _ => child
  end.

(** [role.addToPolicy(statement)]: the role object is shared by everything
    that holds it, so the update is made in the stack. *)
Definition addToPolicy (role : string) (statement : iam.PolicyStatement) : M unit :=
  λ this, Returned (tt,
    {| stackId := stackId this; region := region this;
       account := account this; context := context this;
       children := add_statement role statement <$> children this;
       tags := tags this |}).

(** Attributes the library computes for a construct. *)
Definition bucketArn (b : string) : TokenString := Attr b "bucketArn" "".
Definition bucketName (b : string) : TokenString := Attr b "bucketName" "".
Definition attrConnectionArn (c : string) : TokenString := Attr c "attrConnectionArn" "".
Definition projectArn (p : string) : TokenString := Attr p "projectArn" "".
Definition projectName (p : string) : TokenString := Attr p "projectName" "".
Definition pipelineName (p : string) : TokenString := Attr p "pipelineName" "".
Definition roleArn (r : string) : TokenString := Attr r "roleArn" "".

(** [`${t}suffix`] *)
Definition template_suffix (t : TokenString) (suffix : string) : TokenString :=
  match t with
  | Lit s => Lit (s +:+ suffix)
  | Attr c a s => Attr c a (s +:+ suffix)
  end.

(** ** [src/index.ts] *)

Definition createInfraPipeline (environment : string) : M unit :=
  region ← this_region;
  account ← this_account;
  (* Infra Pipeline S3 Buckets *)
  infraArtifactBucket ← new_ "InfraArtifactBucket" (CBucket {|
    s3.bucketName := "sle-" +:+ environment +:+ "-infra-artifacts";
    s3.versioned := None;
    s3.blockPublicAccess := s3.BLOCK_ALL;
    s3.removalPolicy := RETAIN |});
  infraPackagingBucket ← new_ "InfraPackagingBucket" (CBucket {|
    s3.bucketName := "sle-" +:+ environment +:+ "-packaging-bucket";
    s3.versioned := Some true;
    s3.blockPublicAccess := s3.BLOCK_ALL;
    s3.removalPolicy := RETAIN |});
  (* GitHub Connection for Infra Pipeline *)
  infraGitHubConnection ← new_ "InfraGitHubConnection" (CConnection {|
    codestarconnections.connectionName := "sle-" +:+ environment +:+ "-git-infra-conn";
    codestarconnections.providerType := "GitHub" |});
  (* CodeBuild Service Role for Infra *)
  infraCodeBuildServiceRole ← new_ "InfraCodeBuildServiceRole" (CRole {|
    iam.assumedBy := ["codebuild.amazonaws.com"];
    iam.policy := [] |});
  addToPolicy infraCodeBuildServiceRole {|
    iam.sid := None;
    iam.actions := [
      "logs:CreateLogGroup";
      "logs:CreateLogStream";
      "logs:PutLogEvents";
      "logs:DescribeLogStreams" ];
    iam.resources := [
      Lit ("arn:aws:logs:" +:+ region +:+ ":" +:+ account
           +:+ ":log-group:/aws/codebuild/sle-" +:+ environment
           +:+ "-infra-codebuild*") ] |};;
  addToPolicy infraCodeBuildServiceRole {|
    iam.sid := None;
    iam.actions := [
      "s3:GetObject";
      "s3:PutObject";
      "s3:GetObjectVersion";
      "s3:ListBucket" ];
    iam.resources := [
      bucketArn infraArtifactBucket;
      template_suffix (bucketArn infraArtifactBucket) "/*";
      bucketArn infraPackagingBucket;
      template_suffix (bucketArn infraPackagingBucket) "/*" ] |};;
  addToPolicy infraCodeBuildServiceRole {|
    iam.sid := None;
    iam.actions := [
      "cloudformation:ValidateTemplate";
      "cloudformation:DescribeStacks";
      "cloudformation:PackageType" ];
    iam.resources := [ Lit "*" ] |};;
  addToPolicy infraCodeBuildServiceRole {|
    iam.sid := None;
    iam.actions := [ "iam:PassRole" ];
    iam.resources := [
      Lit ("arn:aws:iam::" +:+ account +:+ ":role/sle-" +:+ environment +:+ "-*") ] |};;
  (* CodeBuild Project for Infra *)
  ctxEnvironment ← tryGetContext "environment";
  ctxBranch ← tryGetContext "pipelineGithubBranch";
  infraCodeBuildProject ← new_ "InfraCodeBuildProject" (CProject {|
    codebuild.projectName := "sle-" +:+ environment +:+ "-infra-codebuild";
    codebuild.description := "SLE Infrastructure - CodeBuild";
    codebuild.role := infraCodeBuildServiceRole;
    codebuild.timeoutMinutes := 10;
    codebuild.buildSpec := "pipeline/infra-buildspec.yaml";
    codebuild.buildImage := codebuild.STANDARD_7_0;
    codebuild.computeType := codebuild.SMALL;
    codebuild.privileged := true;
    codebuild.environmentVariables := [
      ("PACKAGING_BUCKET", bucketName infraPackagingBucket);
      ("ENVIRONMENT", Lit (js_or ctxEnvironment environment));
      ("PIPELINE_GITHUB_BRANCH", Lit (js_or ctxBranch "main")) ] |});
  (* CodePipeline Execution Role for Infra *)
  infraCodePipelineExecutionRole ← new_ "InfraCodePipelineExecutionRole" (CRole {|
    iam.assumedBy := ["codepipeline.amazonaws.com"; "cloudformation.amazonaws.com"];
    iam.policy := [] |});
  addToPolicy infraCodePipelineExecutionRole {|
    iam.sid := Some "PipelineStackPermission";
    iam.actions := [
      "cloudformation:CreateStack";
      "cloudformation:DeleteStack";
      "cloudformation:RollbackStack";
      "cloudformation:DescribeStacks";
      "cloudformation:UpdateStack";
      "cloudformation:SetStackPolicy";
      "cloudformation:GetStackPolicy";
      "cloudformation:GetTemplate";
      "cloudformation:ListStacks" ];
    iam.resources := [
      Lit ("arn:aws:cloudformation:" +:+ region +:+ ":" +:+ account
           +:+ ":stack/sle-" +:+ environment +:+ "-*") ] |};;
  addToPolicy infraCodePipelineExecutionRole {|
    iam.sid := Some "PipelineChangeSetPermission";
    iam.actions := [
      "cloudformation:ListChangeSets";
      "cloudformation:CreateChangeSet";
      "cloudformation:DescribeChangeSet";
      "cloudformation:ExecuteChangeSet";
      "cloudformation:DeleteChangeSet" ];
    iam.resources := [ Lit "*" ] |};;
  (* DynamoDB permissions *)
  addToPolicy infraCodePipelineExecutionRole {|
    iam.sid := Some "DynamoDB";
    iam.actions := [
      "dynamodb:CreateTable";
      "dynamodb:UpdateTable";
      "dynamodb:DescribeTable";
      "dynamodb:DeleteTable";
      "dynamodb:TagResource";
      "dynamodb:UntagResource";
      "dynamodb:UpdateContinuousBackups";
      "dynamodb:DescribeContinuousBackups" ];
    iam.resources := [
      Lit ("arn:aws:dynamodb:" +:+ region +:+ ":" +:+ account
           +:+ ":table/school-licenses-table") ] |};;
  (* S3 permissions *)
  addToPolicy infraCodePipelineExecutionRole {|
    iam.sid := Some "S3ListPermissions";
    iam.actions := [
      "s3:ListBucket";
      "s3:GetObjectVersion";
      "s3:GetObject";
      "s3:PutObject";
      "s3:DeleteObject";
      "s3:TagResource";
      "s3:UntagResource";
      "s3:ListTagsForResource";
      "s3:PutBucketPublicAccessBlock" ];
    iam.resources := [
      Lit ("arn:aws:s3:::sle-" +:+ environment +:+ "-*");
      Lit ("arn:aws:s3:::sle-" +:+ environment +:+ "-*/*") ] |};;
  (* Pipeline permissions *)
  addToPolicy infraCodePipelineExecutionRole {|
    iam.sid := None;
    iam.actions := [
      "codestar-connections:UseConnection";
      "codestar-connections:GetConnection" ];
    iam.resources := [ attrConnectionArn infraGitHubConnection ] |};;
  addToPolicy infraCodePipelineExecutionRole {|
    iam.sid := None;
    iam.actions := [
      "codebuild:StartBuild";
      "codebuild:BatchGetBuilds" ];
    iam.resources := [ projectArn infraCodeBuildProject ] |};;
  addToPolicy infraCodePipelineExecutionRole {|
    iam.sid := Some "ApplicationPipelinePermissions";
    iam.actions := [
      "codeconnections:CreateConnection";
      "codeconnections:GetConnection";
      "codeconnections:DeleteConnection";
      "codeconnections:TagResource";
      "codeconnections:ListTagsForResource";
      "codestar-connections:PassConnection" ];
    iam.resources := [
      Lit ("arn:aws:codestar-connections:" +:+ region +:+ ":" +:+ account +:+ ":*") ] |};;
  addToPolicy infraCodePipelineExecutionRole {|
    iam.sid := Some "CodeBuildAccess";
    iam.actions := [
      "codebuild:CreateProject";
      "codebuild:DeleteProject" ];
    iam.resources := [
      Lit ("arn:aws:codebuild:" +:+ region +:+ ":" +:+ account
           +:+ ":project/sle-" +:+ environment +:+ "-*") ] |};;
  addToPolicy infraCodePipelineExecutionRole {|
    iam.sid := Some "CodePipelineAccess";
    iam.actions := [
      "codepipeline:CreatePipeline";
      "codepipeline:DeletePipeline";
      "codepipeline:TagResource";
      "codepipeline:UntagResource";
      "codepipeline:GetPipeline" ];
    iam.resources := [
      Lit ("arn:aws:codepipeline:" +:+ region +:+ ":" +:+ account
           +:+ ":sle-" +:+ environment +:+ "-*") ] |};;
  addToPolicy infraCodePipelineExecutionRole {|
    iam.sid := Some "SSMParameterStoreAccess";
    iam.actions := [
      "ssm:GetParameter";
      "ssm:PutParameter";
      "ssm:DeleteParameter" ];
    iam.resources := [
      Lit ("arn:aws:ssm:" +:+ region +:+ ":" +:+ account
           +:+ ":parameter/cdk-bootstrap*") ] |};;
  (* Infra Pipeline *)
  ctxBranch' ← tryGetContext "pipelineGithubBranch";
  infraPipeline ← new_ "InfraPipeline" (CPipeline {|
    codepipeline.pipelineName := "sle-" +:+ environment +:+ "-infra-pipeline";
    codepipeline.role := infraCodePipelineExecutionRole;
    codepipeline.artifactBucket := infraArtifactBucket;
    codepipeline.stages := [
      {| codepipeline.stageName := "Source";
         codepipeline.actions := [
           codepipeline.CodeStarConnectionsSourceAction
             "GitHubSource" "goelsnehaa" "aws-cdk-infra"
             (attrConnectionArn infraGitHubConnection)
             (js_or ctxBranch' "main")
             codepipeline.infraSourceOutput false ] |};
      {| codepipeline.stageName := "Build";
         codepipeline.actions := [
           codepipeline.CodeBuildAction
             "PackageTemplates" infraCodeBuildProject
             codepipeline.infraSourceOutput [codepipeline.infraBuildOutput] ] |};
      {| codepipeline.stageName := "CreateChangeSet";
         codepipeline.actions := [
           codepipeline.CloudFormationCreateReplaceChangeSetAction
             "CreateInfraChangeSet"
             ("sle-" +:+ environment +:+ "-infra-cf")
             ("sle-" +:+ environment +:+ "-infra-changeset")
             false
             infraCodePipelineExecutionRole
             (codepipeline.infraBuildOutput,
              "sle-infrastructure-" +:+ environment +:+ ".template.json")
             1 ] |};
      {| codepipeline.stageName := "Approve";
         codepipeline.actions := [
           codepipeline.ManualApprovalAction "ManualApproval" 1 ] |};
      {| codepipeline.stageName := "ExecuteChangeSet";
         codepipeline.actions := [
           codepipeline.CloudFormationExecuteChangeSetAction
             "ExecuteInfraChangeSet"
             ("sle-" +:+ environment +:+ "-infra-cf")
             ("sle-" +:+ environment +:+ "-infra-changeset")
             1 ] |} ] |});
  (* Outputs *)
  new_ "InfraCodeBuildIAMRole" (COutput {|
    cdk.description := "Infra CodeBuild IAM Role";
    cdk.value := roleArn infraCodeBuildServiceRole |});;
  new_ "InfraCodeBuild" (COutput {|
    cdk.description := "Infra CodeBuild Project name";
    cdk.value := projectName infraCodeBuildProject |});;
  new_ "InfraCodePipeline" (COutput {|
    cdk.description := "Infra AWS CodePipeline pipeline name";
    cdk.value := pipelineName infraPipeline |});;
  new_ "InfraCodePipelineIAMRole" (COutput {|
    cdk.description := "Infra CodePipeline IAM Role";
    cdk.value := roleArn infraCodePipelineExecutionRole |});;
  mret tt.

(** The body of [InfraStack]'s constructor after [super(scope, id, props)]. *)
Definition constructor (props : InfraStackProps) : M unit :=
  let environment := environment props in
  table ← new_ "Table" (CTable {|
    dynamodb.tableName := "school-licenses-table";
    dynamodb.partitionKey := ("PK", dynamodb.STRING);
    dynamodb.sortKey := ("SK", dynamodb.STRING);
    dynamodb.billingMode := dynamodb.PAY_PER_REQUEST;
    dynamodb.deletionProtection := true;
    dynamodb.pointInTimeRecoveryEnabled := true;
    dynamodb.removalPolicy := RETAIN |});
  Tags_add table "Environment" environment;;
  Tags_add table "Service" "sle";;
  Tags_add table "stack" "cdk-infra";;
  (* Infra Pipeline Resources *)
  createInfraPipeline environment.

(** [super(scope, id, props)]: an empty stack in the scope. *)
Definition super (scope : App) (id : string) : Stack :=
  {| stackId := id; region := appRegion scope; account := appAccount scope;
     context := appContext scope; children := []; tags := [] |}.

(** [new InfraStack(scope, id, props)] *)
Definition InfraStack (scope : App) (id : string) (props : InfraStackProps)
    : Outcome Stack :=
  match constructor props (super scope id) with
  | Returned (_, this) => Returned this
  | Thrown err => Thrown err
  end.

(** ** The application entry point *)

(** [const environment = app.node.tryGetContext('environment') || 'dev'] *)
Definition entry_environment (app : App) : string :=
  js_or (appContext app !! "environment") "dev".

Definition main (app : App) : Outcome Stack :=
  let environment := entry_environment app in
  InfraStack app ("sle-infrastructure-" +:+ environment)
    {| environment := environment |}.

(** ** Reading a finished stack *)

Fixpoint lookup_child (cs : list (string * Construct)) (id : string) : option Construct :=
  match cs with
  | [] => None
  | (i, c) :: cs' => if decide (i = id) then Some c else lookup_child cs' id
  end.

(** The name the source gives to a construct, where it gives one. *)
Definition physicalName (c : Construct) : option string :=
  match c with
  | CTable t => Some (dynamodb.tableName t)
  | CBucket b => Some (s3.bucketName b)
  | CConnection c => Some (codestarconnections.connectionName c)
  | CProject p => Some (codebuild.projectName p)
  | CPipeline p => Some (codepipeline.pipelineName p)
  | CRole _ => None
  | COutput _ => None
  end.

(** The change-set action of a pipeline: stack name, change-set name and
    template path. *)
Fixpoint find_change_set (acts : list codepipeline.Action)
    : option (string * string * (codepipeline.Artifact * string)) :=
  match acts with
  | [] => None
  | codepipeline.CloudFormationCreateReplaceChangeSetAction _ sn cn _ _ tp _ :: _ =>
      Some (sn, cn, tp)
  | _ :: acts' => find_change_set acts'
  end.

Definition change_set (this : Stack)
    : option (string * string * (codepipeline.Artifact * string)) :=
  match lookup_child (children this) "InfraPipeline" with
  | Some (CPipeline p) =>
      find_change_set (concat (codepipeline.actions <$> codepipeline.stages p))
  | _ => None
  end.

(** The names a stack declares. *)
Inductive NameKey :=
| TableName
| ArtifactBucket
| PackagingBucket
| Connection
| CodeBuildProject
| PipelineName
| StackName
| ChangeSetName.

Definition all_keys : list NameKey :=
  [TableName; ArtifactBucket; PackagingBucket; Connection; CodeBuildProject;
   PipelineName; StackName; ChangeSetName].

(** Every name but the table's carries the environment. *)
Definition environment_scoped (k : NameKey) : bool :=
  match k with TableName => false | _ => true end.

Definition name_of (this : Stack) (k : NameKey) : option string :=
  match k with
  | TableName => lookup_child (children this) "Table" ≫= physicalName
  | ArtifactBucket => lookup_child (children this) "InfraArtifactBucket" ≫= physicalName
  | PackagingBucket => lookup_child (children this) "InfraPackagingBucket" ≫= physicalName
  | Connection => lookup_child (children this) "InfraGitHubConnection" ≫= physicalName
  | CodeBuildProject => lookup_child (children this) "InfraCodeBuildProject" ≫= physicalName
  | PipelineName => lookup_child (children this) "InfraPipeline" ≫= physicalName
  | StackName => (λ x, x.1.1) <$> change_set this
  | ChangeSetName => (λ x, x.1.2) <$> change_set this
  end.

(** Every statement granted to a role of the stack, with the role's id. *)
Definition policies (this : Stack) : list (string * iam.PolicyStatement) :=
  concat ((λ child : string * Construct,
             match child.2 with
             | CRole r => (λ st, (child.1, st)) <$> iam.policy r
             | _ => []
             end) <$> children this).

(** A build variable of the CodeBuild project. *)
Fixpoint assoc {A} (l : list (string * A)) (k : string) : option A :=
  match l with
  | [] => None
  | (k', a) :: l' => if decide (k' = k) then Some a else assoc l' k
  end.

Definition build_variable (this : Stack) (name : string) : option TokenString :=
  match lookup_child (children this) "InfraCodeBuildProject" with
  | Some (CProject p) => assoc (codebuild.environmentVariables p) name
  | _ => None
  end.


(** ** The specification's vocabulary *)

(** The input constraint of the specification, [^[a-z][a-z0-9-]*$].  The
    source contains no such test; the predicate is only used to state which
    environments the specification calls valid. *)
Definition char_between (lo hi : nat) (c : ascii) : bool :=
  let n := nat_of_ascii c in Nat.leb lo n && Nat.leb n hi.

Definition is_lower (c : ascii) : bool := char_between 97 122 c.
Definition is_digit (c : ascii) : bool := char_between 48 57 c.
Definition is_hyphen (c : ascii) : bool := char_between 45 45 c.

Definition name_char (c : ascii) : bool := is_lower c || is_digit c || is_hyphen c.

Fixpoint string_forall (P : ascii → bool) (s : string) : bool :=
  match s with
  | EmptyString => true
  | String c s' => P c && string_forall P s'
  end.

Definition valid_environment (e : string) : bool :=
  match e with
  | EmptyString => false
  | String c e' => is_lower c && string_forall name_char e'
  end.





Definition has_action (a : string) (st : iam.PolicyStatement) : bool :=
  bool_decide (a ∈ iam.actions st).




(** The specification's [derive(environment)]: the stack constructed for
    that environment. *)
Definition derive (scope : App) (id : string) (e : string) : Outcome Stack :=
  InfraStack scope id {| environment := e |}.

(** The stack [derive] returns. *)
Definition declared (scope : App) (id : string) (e : string) : Stack :=
  match derive scope id e with
  | Returned this => this
  | Thrown _ => super scope id
  end.

(** Sample scopes: an application without context, one whose context sets
    the environment, and one whose context sets it to the empty string. *)
Definition plain_app : App :=
  {| appContext := ∅; appRegion := "us-east-1"; appAccount := "123456789012" |}.

Definition prod_app : App :=
  {| appContext := {["environment" := "prod"]};
     appRegion := "eu-west-1"; appAccount := "123456789012" |}.

Definition blank_app : App :=
  {| appContext := {["environment" := ""]};
     appRegion := "us-east-1"; appAccount := "123456789012" |}.

(** ** Reading a finished stack: references, pipeline, grants *)

Definition child_ids (this : Stack) : list string := (children this).*1.

Inductive Kind := KTable | KBucket | KConnection | KRole | KProject | KPipeline | KOutput.

#[global] Instance Kind_eq_dec : EqDecision Kind.
Proof. solve_decision. Defined.

#[global] Instance Artifact_eq_dec : EqDecision codepipeline.Artifact.
Proof. solve_decision. Defined.








Definition pipeline_stages (this : Stack) : list codepipeline.Stage :=
  match lookup_child (children this) "InfraPipeline" with
  | Some (CPipeline p) => codepipeline.stages p
  | _ => []
  end.

Definition action_inputs (a : codepipeline.Action) : list codepipeline.Artifact :=
  match a with
  | codepipeline.CodeBuildAction _ _ input _ => [input]
  | codepipeline.CloudFormationCreateReplaceChangeSetAction _ _ _ _ _ tp _ => [tp.1]
  | _ => []
  end.

Definition action_outputs (a : codepipeline.Action) : list codepipeline.Artifact :=
  match a with
  | codepipeline.CodeStarConnectionsSourceAction _ _ _ _ _ output _ => [output]
  | codepipeline.CodeBuildAction _ _ _ outputs => outputs
  | _ => []
  end.

Definition stage_inputs (s : codepipeline.Stage) : list codepipeline.Artifact :=
  concat (action_inputs <$> codepipeline.actions s).

Definition stage_outputs (s : codepipeline.Stage) : list codepipeline.Artifact :=
  concat (action_outputs <$> codepipeline.actions s).

(** Whether every stage reads only artifacts in [available] or written by
    an earlier stage of the list. *)
Fixpoint artifacts_flow (available : list codepipeline.Artifact)
    (stages : list codepipeline.Stage) : bool :=
  match stages with
  | [] => true
  | s :: stages' =>
      forallb (λ a, bool_decide (a ∈ available)) (stage_inputs s)
      && artifacts_flow (available ++ stage_outputs s) stages'
  end.

Definition is_create_change_set (a : codepipeline.Action) : bool :=
  match a with
  | codepipeline.CloudFormationCreateReplaceChangeSetAction _ _ _ _ _ _ _ => true
  | _ => false
  end.

Definition is_manual_approval (a : codepipeline.Action) : bool :=
  match a with codepipeline.ManualApprovalAction _ _ => true | _ => false end.

Definition is_execute_change_set (a : codepipeline.Action) : bool :=
  match a with
  | codepipeline.CloudFormationExecuteChangeSetAction _ _ _ _ => true
  | _ => false
  end.

(** The position of the first stage with an action satisfying [p]. *)
Fixpoint stage_index (p : codepipeline.Action → bool)
    (stages : list codepipeline.Stage) : option nat :=
  match stages with
  | [] => None
  | s :: stages' =>
      if existsb p (codepipeline.actions s) then Some 0
      else S <$> stage_index p stages'
  end.

(** Stack name and change-set name of every execute action, in order. *)
Definition executed_change_sets (this : Stack) : list (string * string) :=
  concat ((λ a, match a with
                | codepipeline.CloudFormationExecuteChangeSetAction _ sn cn _ => [(sn, cn)]
                | _ => []
                end) <$> concat (codepipeline.actions <$> pipeline_stages this)).

(** The branch of every source action, in order. *)
Definition source_branches (this : Stack) : list string :=
  concat ((λ a, match a with
                | codepipeline.CodeStarConnectionsSourceAction _ _ _ _ branch _ _ => [branch]
                | _ => []
                end) <$> concat (codepipeline.actions <$> pipeline_stages this)).

(** The resource patterns on which [role] is granted [action]. *)
Definition granted (this : Stack) (role action : string) : list TokenString :=
  concat ((λ p : string * iam.PolicyStatement,
             if decide (p.1 = role)
             then if has_action action p.2 then iam.resources p.2 else []
             else []) <$> policies this).



(** The handles the pipeline and the project hold. *)
Definition pipeline_actions (this : Stack) : list codepipeline.Action :=
  concat (codepipeline.actions <$> pipeline_stages this).

Definition source_connections (this : Stack) : list TokenString :=
  concat ((λ a, match a with
                | codepipeline.CodeStarConnectionsSourceAction _ _ _ arn _ _ _ => [arn]
                | _ => []
                end) <$> pipeline_actions this).

Definition build_projects (this : Stack) : list string :=
  concat ((λ a, match a with
                | codepipeline.CodeBuildAction _ project _ _ => [project]
                | _ => []
                end) <$> pipeline_actions this).

Definition deployment_roles (this : Stack) : list string :=
  concat ((λ a, match a with
                | codepipeline.CloudFormationCreateReplaceChangeSetAction _ _ _ _ role _ _ =>
                    [role]
                | _ => []
                end) <$> pipeline_actions this).

Definition pipeline_role (this : Stack) : option string :=
  match lookup_child (children this) "InfraPipeline" with
  | Some (CPipeline p) => Some (codepipeline.role p)
  | _ => None
  end.



(** * Properties *)

(** ** Strings *)

Lemma length_app (s t : string) :
  String.length (s +:+ t) = String.length s + String.length t.
Proof.
  induction s as [|c s IH]; [reflexivity|].
  change (S (String.length (s +:+ t)) = S (String.length s + String.length t)).
  rewrite IH. reflexivity.
Qed.

Lemma app_inj_r (s1 s2 t : string) : s1 +:+ t = s2 +:+ t → s1 = s2.
Proof.
  revert s2. induction s1 as [|c s1 IH]; intros [|d s2] H.
  - reflexivity.
  - apply (f_equal String.length) in H.
    change (String.length t = S (String.length (s2 +:+ t))) in H.
    rewrite length_app in H. lia.
  - apply (f_equal String.length) in H.
    change (S (String.length (s1 +:+ t)) = String.length t) in H.
    rewrite length_app in H. lia.
  - change (String c (s1 +:+ t) = String d (s2 +:+ t)) in H.
    injection H as -> H. f_equal. apply IH, H.
Qed.

(** ** The constructor always returns *)

Lemma derive_returns (scope : App) (id e : string) :
  derive scope id e = Returned (declared scope id e).
Proof. vm_compute. reflexivity. Qed.

(** ** Names *)

(** C3: deriving for environment "dev" yields table "school-licenses-table",
    artifact bucket "sle-dev-infra-artifacts", packaging bucket
    "sle-dev-packaging-bucket", CodeBuild project "sle-dev-infra-codebuild"
    and pipeline "sle-dev-infra-pipeline". *)
Theorem derive_dev_names (scope : App) (id : string) :
  ∃ this, derive scope id "dev" = Returned this
    ∧ name_of this TableName = Some "school-licenses-table"
    ∧ name_of this ArtifactBucket = Some "sle-dev-infra-artifacts"
    ∧ name_of this PackagingBucket = Some "sle-dev-packaging-bucket"
    ∧ name_of this CodeBuildProject = Some "sle-dev-infra-codebuild"
    ∧ name_of this PipelineName = Some "sle-dev-infra-pipeline".
Proof.
  exists (declared scope id "dev"). split; [apply derive_returns|].
  vm_compute. repeat split.
Qed.

(** Every name of the derived stack, in the source's own terms. *)
Lemma name_of_declared (scope : App) (id e : string) (k : NameKey) :
  name_of (declared scope id e) k =
  Some match k with
       | TableName => "school-licenses-table"
       | ArtifactBucket => "sle-" +:+ e +:+ "-infra-artifacts"
       | PackagingBucket => "sle-" +:+ e +:+ "-packaging-bucket"
       | Connection => "sle-" +:+ e +:+ "-git-infra-conn"
       | CodeBuildProject => "sle-" +:+ e +:+ "-infra-codebuild"
       | PipelineName => "sle-" +:+ e +:+ "-infra-pipeline"
       | StackName => "sle-" +:+ e +:+ "-infra-cf"
       | ChangeSetName => "sle-" +:+ e +:+ "-infra-changeset"
       end.
Proof. destruct k; vm_compute; reflexivity. Qed.

(** Two environment-scoped names under the same key are equal only for
    equal environments. *)
Lemma scoped_name_inj (scope1 scope2 : App) (id1 id2 e1 e2 : string) (k : NameKey) :
  environment_scoped k = true →
  name_of (declared scope1 id1 e1) k = name_of (declared scope2 id2 e2) k →
  e1 = e2.
Proof.
  intros Hk. rewrite !name_of_declared. intros H.
  apply (inj Some) in H.
  destruct k; try discriminate Hk;
    apply (inj (String.app "sle-")) in H; exact (app_inj_r _ _ _ H).
Qed.

(** C4: the table name is the fixed string "school-licenses-table" for
    every valid environment; deriving for "prod" gives the table name of
    "dev", and every other name of "prod" is the name of "dev" with "prod"
    in the place of "dev". *)
Theorem table_name_environment_independent (scope : App) (id e : string) :
  valid_environment e = true →
  ∃ this dev prod,
    derive scope id e = Returned this
    ∧ derive scope id "dev" = Returned dev
    ∧ derive scope id "prod" = Returned prod
    ∧ name_of this TableName = Some "school-licenses-table"
    ∧ name_of prod TableName = name_of dev TableName
    ∧ ∀ k, environment_scoped k = true →
        ∃ pre post, name_of dev k = Some (pre +:+ "dev" +:+ post)
                  ∧ name_of prod k = Some (pre +:+ "prod" +:+ post).
Proof.
  intros _.
  exists (declared scope id e), (declared scope id "dev"), (declared scope id "prod").
  split; [apply derive_returns|]. split; [apply derive_returns|].
  split; [apply derive_returns|].
  split; [exact (name_of_declared scope id e TableName)|].
  split; [rewrite !name_of_declared; reflexivity|].
  intros k Hk. rewrite !name_of_declared. exists "sle-".
  destruct k; try discriminate Hk; eexists; split; reflexivity.
Qed.

Lemma table_name_environment_independent_witness :
  valid_environment "staging" = true ∧
  ∃ this dev prod,
    derive plain_app "sle-infrastructure-staging" "staging" = Returned this
    ∧ derive plain_app "sle-infrastructure-staging" "dev" = Returned dev
    ∧ derive plain_app "sle-infrastructure-staging" "prod" = Returned prod
    ∧ name_of this TableName = Some "school-licenses-table"
    ∧ name_of prod TableName = name_of dev TableName
    ∧ ∀ k, environment_scoped k = true →
        ∃ pre post, name_of dev k = Some (pre +:+ "dev" +:+ post)
                  ∧ name_of prod k = Some (pre +:+ "prod" +:+ post).
Proof.
  split; [reflexivity|].
  apply (table_name_environment_independent
           plain_app "sle-infrastructure-staging" "staging").
  reflexivity.
Defined.

(** C5: for valid environments [e1 ≠ e2], every environment-scoped name
    (artifact bucket, packaging bucket, connection, CodeBuild project,
    pipeline, stack, change set) of [derive e1] differs from the name of
    [derive e2] under the same key.  (Validity is not needed: see
    [scoped_name_inj].) *)
Theorem no_cross_environment_collision
    (scope1 scope2 : App) (id1 id2 e1 e2 : string) :
  valid_environment e1 = true →
  valid_environment e2 = true →
  e1 ≠ e2 →
  ∃ this1 this2,
    derive scope1 id1 e1 = Returned this1
    ∧ derive scope2 id2 e2 = Returned this2
    ∧ ∀ k, environment_scoped k = true → name_of this1 k ≠ name_of this2 k.
Proof.
  intros _ _ Hne.
  exists (declared scope1 id1 e1), (declared scope2 id2 e2).
  split; [apply derive_returns|]. split; [apply derive_returns|].
  intros k Hk Heq. apply Hne. exact (scoped_name_inj _ _ _ _ _ _ k Hk Heq).
Qed.

Lemma no_cross_environment_collision_witness :
  valid_environment "dev" = true ∧ valid_environment "prod" = true ∧ "dev" ≠ "prod" ∧
  ∃ this1 this2,
    derive plain_app "sle-infrastructure-dev" "dev" = Returned this1
    ∧ derive plain_app "sle-infrastructure-prod" "prod" = Returned this2
    ∧ ∀ k, environment_scoped k = true → name_of this1 k ≠ name_of this2 k.
Proof.
  split; [reflexivity|]. split; [reflexivity|]. split; [discriminate|].
  apply (no_cross_environment_collision plain_app plain_app
           "sle-infrastructure-dev" "sle-infrastructure-prod" "dev" "prod");
    [reflexivity | reflexivity | discriminate].
Defined.

(** C9: within one environment the derived names (table, artifact bucket,
    packaging bucket, connection, CodeBuild project, pipeline, stack, change
    set) are pairwise distinct, for every environment string; the derivation
    returns, so no name collision is reported. *)
Theorem names_pairwise_distinct (scope : App) (id e : string) :
  ∃ this,
    derive scope id e = Returned this
    ∧ (∀ k, is_Some (name_of this k))
    ∧ ∀ k1 k2, k1 ≠ k2 → name_of this k1 ≠ name_of this k2.
Proof.
  exists (declared scope id e). split; [apply derive_returns|]. split.
  - intros k. rewrite name_of_declared. eexists; reflexivity.
  - intros k1 k2 Hk. rewrite !name_of_declared. intros H. apply (inj Some) in H.
    destruct k1, k2; try (exfalso; apply Hk; reflexivity);
      try (vm_compute in H; discriminate H);
      apply (inj (String.app "sle-")), (inj (String.app e)) in H; discriminate H.
Qed.

Lemma names_pairwise_distinct_witness :
  ArtifactBucket ≠ PackagingBucket
  ∧ ∃ this,
      derive plain_app "sle-infrastructure-dev" "dev" = Returned this
      ∧ name_of this ArtifactBucket ≠ name_of this PackagingBucket.
Proof.
  split; [discriminate|].
  destruct (names_pairwise_distinct plain_app "sle-infrastructure-dev" "dev")
    as (this & Hd & _ & Hn).
  exists this. split; [exact Hd|]. apply Hn. discriminate.
Defined.

(** ** Validation *)




(** ** Platform limits *)









(** ** What the derivation depends on *)




(** ** The ENVIRONMENT build variable *)

Lemma build_variable_ENVIRONMENT (scope : App) (id e : string) :
  build_variable (declared scope id e) "ENVIRONMENT"
  = Some (Lit (js_or (appContext scope !! "environment") e)).
Proof. vm_compute. reflexivity. Qed.

(** C8, as the source has it: the [ENVIRONMENT] build variable is the
    context value of [environment] when that value is set and not the empty
    string, and the constructor's [environment] otherwise (context value
    unset or empty); so when the context value is set, non-empty and
    different from the constructor's [environment], the variable differs from
    the environment every environment-scoped name carries. *)
Theorem ENVIRONMENT_build_variable (scope : App) (id e : string) :
  ∃ this,
    derive scope id e = Returned this
    ∧ (∀ v, appContext scope !! "environment" = Some v → v ≠ "" →
         build_variable this "ENVIRONMENT" = Some (Lit v))
    ∧ (appContext scope !! "environment" = None
       ∨ appContext scope !! "environment" = Some "" →
         build_variable this "ENVIRONMENT" = Some (Lit e))
    ∧ (∀ v, appContext scope !! "environment" = Some v → v ≠ "" → v ≠ e →
         build_variable this "ENVIRONMENT" ≠ Some (Lit e)
         ∧ ∀ k, environment_scoped k = true →
             ∃ suffix, name_of this k = Some ("sle-" +:+ e +:+ suffix)).
Proof.
  exists (declared scope id e). split; [apply derive_returns|].
  rewrite build_variable_ENVIRONMENT. split; [|split].
  - intros v -> Hv. unfold js_or.
    destruct (decide (v = "")); [contradiction|reflexivity].
  - intros [-> | ->]; reflexivity.
  - intros v -> Hv Hne. unfold js_or. split.
    + destruct (decide (v = "")); [contradiction|]. intros [= ->]. contradiction.
    + intros k Hk. rewrite name_of_declared.
      destruct k; try discriminate Hk; eexists; reflexivity.
Qed.

Lemma ENVIRONMENT_build_variable_witness :
  appContext prod_app !! "environment" = Some "prod" ∧ "prod" ≠ "" ∧ "prod" ≠ "dev" ∧
  ∃ this,
    derive prod_app "sle-infrastructure-dev" "dev" = Returned this
    ∧ build_variable this "ENVIRONMENT" = Some (Lit "prod")
    ∧ build_variable this "ENVIRONMENT" ≠ Some (Lit "dev")
    ∧ ∀ k, environment_scoped k = true →
        ∃ suffix, name_of this k = Some ("sle-" +:+ "dev" +:+ suffix).
Proof.
  split; [reflexivity|]. split; [discriminate|]. split; [discriminate|].
  destruct (ENVIRONMENT_build_variable prod_app "sle-infrastructure-dev" "dev")
    as (this & Hd & Hset & _ & Hdiff).
  exists this. split; [exact Hd|].
  split; [apply Hset; [reflexivity | discriminate]|].
  apply (Hdiff "prod"); [reflexivity | discriminate | discriminate].
Defined.

(** C8 fails on the source: with the context value of [environment] set to
    the empty string, the build variable is the constructor's [environment],
    not the context value. *)
Lemma blank_context_environment_ignored :
  appContext blank_app !! "environment" = Some ""
  ∧ ∃ this,
      derive blank_app "sle-infrastructure-dev" "dev" = Returned this
      ∧ build_variable this "ENVIRONMENT" = Some (Lit "dev")
      ∧ build_variable this "ENVIRONMENT" ≠ Some (Lit "").
Proof.
  split; [reflexivity|].
  eexists. split; [apply derive_returns|].
  rewrite build_variable_ENVIRONMENT. split; [reflexivity | discriminate].
Qed.

(** ** The entry point *)

Lemma stackId_declared (scope : App) (id e : string) :
  stackId (declared scope id e) = id.
Proof. vm_compute. reflexivity. Qed.

Lemma change_set_declared (scope : App) (id e : string) :
  change_set (declared scope id e)
  = Some ("sle-" +:+ e +:+ "-infra-cf", "sle-" +:+ e +:+ "-infra-changeset",
          (codepipeline.infraBuildOutput,
           "sle-infrastructure-" +:+ e +:+ ".template.json")).
Proof. vm_compute. reflexivity. Qed.

Lemma main_derive (app : App) :
  main app = derive app ("sle-infrastructure-" +:+ entry_environment app)
               (entry_environment app).
Proof. unfold main, derive. cbv zeta. reflexivity. Qed.

(** Through the entry point the build variable and the names agree: both
    carry the entry point's environment. *)
Lemma main_ENVIRONMENT (app : App) :
  ∃ this, main app = Returned this
    ∧ build_variable this "ENVIRONMENT" = Some (Lit (entry_environment app)).
Proof.
  eexists. split; [rewrite main_derive; apply derive_returns|].
  rewrite build_variable_ENVIRONMENT. unfold entry_environment, js_or.
  destruct (appContext app !! "environment") as [v|]; [|reflexivity].
  destruct (decide (v = "")); reflexivity.
Qed.

(** C10: when the context has no value for [environment] the entry point's
    environment is "dev"; the stack is always created with the id
    [sle-infrastructure-<environment>], and the template file the pipeline's
    change-set action reads from the build output is that id followed by
    [.template.json]. *)
Theorem entry_point_defaults (app : App) :
  (appContext app !! "environment" = None → entry_environment app = "dev")
  ∧ ∃ this stack_name change_set_name,
      main app = Returned this
      ∧ stackId this = "sle-infrastructure-" +:+ entry_environment app
      ∧ change_set this
        = Some (stack_name, change_set_name,
                (codepipeline.infraBuildOutput, stackId this +:+ ".template.json")).
Proof.
  split.
  - unfold entry_environment. intros ->. reflexivity.
  - rewrite main_derive. generalize (entry_environment app). intros e.
    eexists. eexists. eexists. split; [apply derive_returns|].
    rewrite stackId_declared, change_set_declared. split; [reflexivity|].
    vm_compute. reflexivity.
Qed.

Lemma entry_point_defaults_witness :
  appContext plain_app !! "environment" = None
  ∧ entry_environment plain_app = "dev"
  ∧ ∃ this stack_name change_set_name,
      main plain_app = Returned this
      ∧ stackId this = "sle-infrastructure-dev"
      ∧ change_set this
        = Some (stack_name, change_set_name,
                (codepipeline.infraBuildOutput, stackId this +:+ ".template.json")).
Proof.
  split; [reflexivity|].
  destruct (entry_point_defaults plain_app) as [Hdev Hid].
  split; [apply Hdev; reflexivity|]. exact Hid.
Defined.

(** ** Permission scopes *)













(** * Further properties of the stack and of the entry point *)

(** ** The entry point *)

Lemma js_or_nonempty (v : option string) (d : string) : d ≠ "" → js_or v d ≠ "".
Proof.
  intros Hd. unfold js_or. destruct v as [s|]; [|exact Hd].
  destruct (decide (s = "")); assumption.
Qed.

Lemma tags_declared (scope : App) (id e : string) :
  tags (declared scope id e)
  = [("Table", ("Environment", e)); ("Table", ("Service", "sle"));
     ("Table", ("stack", "cdk-infra"))].
Proof. vm_compute. reflexivity. Qed.

(** X1: through the entry point one environment is used everywhere: the
    stack id, the ENVIRONMENT build variable, the table's Environment tag and
    every environment-scoped name carry the entry point's environment. *)
Theorem entry_point_one_environment (app : App) :
  ∃ this,
    main app = Returned this
    ∧ stackId this = "sle-infrastructure-" +:+ entry_environment app
    ∧ build_variable this "ENVIRONMENT" = Some (Lit (entry_environment app))
    ∧ ("Table", ("Environment", entry_environment app)) ∈ tags this
    ∧ ∀ k, environment_scoped k = true →
        ∃ suffix, name_of this k = Some ("sle-" +:+ entry_environment app +:+ suffix).
Proof.
  eexists. split; [rewrite main_derive; apply derive_returns|].
  split; [apply stackId_declared|]. split.
  - rewrite build_variable_ENVIRONMENT. unfold entry_environment, js_or.
    destruct (appContext app !! "environment") as [v|]; [|reflexivity].
    destruct (decide (v = "")); reflexivity.
  - split; [rewrite tags_declared; apply list_elem_of_here|].
    intros k Hk. rewrite name_of_declared.
    destruct k; try discriminate Hk; eexists; reflexivity.
Qed.

Lemma entry_point_one_environment_witness :
  environment_scoped PipelineName = true
  ∧ ∃ this,
      main prod_app = Returned this
      ∧ stackId this = "sle-infrastructure-prod"
      ∧ build_variable this "ENVIRONMENT" = Some (Lit "prod")
      ∧ ∃ suffix, name_of this PipelineName = Some ("sle-" +:+ "prod" +:+ suffix).
Proof.
  split; [reflexivity|].
  destruct (entry_point_one_environment prod_app) as (this & Hm & Hid & Hv & _ & Hn).
  exists this. split; [exact Hm|]. split; [exact Hid|]. split; [exact Hv|].
  apply Hn. reflexivity.
Defined.

(** X2: the entry point's environment is the context value of
    [environment] when that value is set and not empty, and "dev" when it is
    unset or empty; it is never the empty string. *)
Theorem entry_environment_cases (app : App) :
  (∀ v, appContext app !! "environment" = Some v → v ≠ "" →
     entry_environment app = v)
  ∧ (appContext app !! "environment" = None
     ∨ appContext app !! "environment" = Some "" →
     entry_environment app = "dev")
  ∧ entry_environment app ≠ "".
Proof.
  unfold entry_environment. split; [|split].
  - intros v -> Hv. unfold js_or. destruct (decide (v = "")); [contradiction|reflexivity].
  - intros [-> | ->]; reflexivity.
  - apply js_or_nonempty. discriminate.
Qed.

Lemma entry_environment_cases_witness :
  appContext prod_app !! "environment" = Some "prod" ∧ "prod" ≠ ""
  ∧ entry_environment prod_app = "prod"
  ∧ appContext blank_app !! "environment" = Some ""
  ∧ entry_environment blank_app = "dev".
Proof.
  split; [reflexivity|]. split; [discriminate|].
  split.
  - destruct (entry_environment_cases prod_app) as [Hset _].
    apply Hset; [reflexivity | discriminate].
  - split; [reflexivity|].
    destruct (entry_environment_cases blank_app) as (_ & Hdef & _).
    apply Hdef. right. reflexivity.
Defined.

(** X11: the stack the pipeline's change-set action deploys to,
    [sle-<environment>-infra-cf], never has the name the entry point gives
    the stack, [sle-infrastructure-<environment>]. *)
Theorem change_set_stack_is_not_the_entry_stack (app : App) :
  ∃ this stack_name change_set_name template,
    main app = Returned this
    ∧ change_set this = Some (stack_name, change_set_name, template)
    ∧ stack_name = "sle-" +:+ entry_environment app +:+ "-infra-cf"
    ∧ stack_name ≠ stackId this.
Proof.
  eexists. eexists. eexists. eexists.
  split; [rewrite main_derive; apply derive_returns|].
  split; [apply change_set_declared|]. split; [reflexivity|].
  rewrite stackId_declared. intros H. apply (f_equal String.length) in H.
  rewrite !length_app in H.
  change (String.length "sle-") with 4 in H.
  change (String.length "-infra-cf") with 9 in H.
  change (String.length "sle-infrastructure-") with 19 in H. lia.
Qed.

(** X12: the template the change-set action reads is named after the
    stack's id exactly when the stack was created with the id
    [sle-infrastructure-<environment>]. *)
Theorem template_path_matches_id (scope : App) (id e : string) :
  ∃ this stack_name change_set_name artifact path,
    derive scope id e = Returned this
    ∧ change_set this = Some (stack_name, change_set_name, (artifact, path))
    ∧ (path = stackId this +:+ ".template.json"
       ↔ id = "sle-infrastructure-" +:+ e).
Proof.
  eexists. eexists. eexists. eexists. eexists.
  split; [apply derive_returns|]. split; [apply change_set_declared|].
  rewrite stackId_declared.
  change ("sle-infrastructure-" +:+ e +:+ ".template.json")
    with (("sle-infrastructure-" +:+ e) +:+ ".template.json") at 1.
  split; [intros H; symmetry; exact (app_inj_r _ _ _ H) | intros ->; reflexivity].
Qed.

Lemma template_path_matches_id_witness :
  ∃ this stack_name change_set_name artifact path,
    derive plain_app "sle-infrastructure-dev" "dev" = Returned this
    ∧ change_set this = Some (stack_name, change_set_name, (artifact, path))
    ∧ path = stackId this +:+ ".template.json".
Proof.
  destruct (template_path_matches_id plain_app "sle-infrastructure-dev" "dev")
    as (this & sn & cn & art & path & Hd & Hc & Hiff).
  exists this, sn, cn, art, path. split; [exact Hd|]. split; [exact Hc|].
  apply Hiff. reflexivity.
Defined.

(** ** The pipeline *)

(** X3: the branch the pipeline's source action follows and the
    PIPELINE_GITHUB_BRANCH build variable are the same string, the context
    value of [pipelineGithubBranch] under JavaScript's [||] with "main"; it is
    never empty, and there is exactly one source action. *)
Theorem source_branch_is_build_branch (scope : App) (id e : string) :
  ∃ this branch,
    derive scope id e = Returned this
    ∧ branch = js_or (appContext scope !! "pipelineGithubBranch") "main"
    ∧ source_branches this = [branch]
    ∧ build_variable this "PIPELINE_GITHUB_BRANCH" = Some (Lit branch)
    ∧ branch ≠ "".
Proof.
  eexists. eexists. split; [apply derive_returns|]. split; [reflexivity|].
  split; [vm_compute; reflexivity|]. split; [vm_compute; reflexivity|].
  apply js_or_nonempty. discriminate.
Qed.

(** X4: the change set the pipeline executes is the one it creates (same
    stack name, same change-set name), it executes exactly one, and a manual
    approval stage lies strictly between the stage that creates it and the
    stage that executes it. *)
Theorem change_set_approved_before_execution (scope : App) (id e : string) :
  ∃ this stack_name change_set_name template created approved executed,
    derive scope id e = Returned this
    ∧ change_set this = Some (stack_name, change_set_name, template)
    ∧ executed_change_sets this = [(stack_name, change_set_name)]
    ∧ stage_index is_create_change_set (pipeline_stages this) = Some created
    ∧ stage_index is_manual_approval (pipeline_stages this) = Some approved
    ∧ stage_index is_execute_change_set (pipeline_stages this) = Some executed
    ∧ created < approved < executed.
Proof.
  exists (declared scope id e). do 3 eexists. exists 2, 3, 4.
  split; [apply derive_returns|]. split; [apply change_set_declared|].
  split; [vm_compute; reflexivity|].
  split; [vm_compute; reflexivity|]. split; [vm_compute; reflexivity|].
  split; [vm_compute; reflexivity|]. lia.
Qed.

Lemma artifacts_flow_sound (available : list codepipeline.Artifact)
    (stages : list codepipeline.Stage) :
  artifacts_flow available stages = true →
  ∀ before s after, stages = before ++ s :: after →
  ∀ a, a ∈ stage_inputs s →
    a ∈ available ++ concat (stage_outputs <$> before).
Proof.
  revert available. induction stages as [|s0 stages IH]; intros available H before s after Heq a Ha.
  - destruct before; discriminate Heq.
  - cbn [artifacts_flow] in H. apply andb_true_iff in H as [Hs0 Hrest].
    destruct before as [|b before]; cbn in Heq; injection Heq as -> Heq.
    + cbn. rewrite app_nil_r.
      rewrite List.forallb_forall in Hs0.
      apply list_elem_of_In, Hs0 in Ha. exact (bool_decide_unpack _ (Is_true_true_2 _ Ha)).
    + specialize (IH _ Hrest before s after Heq a Ha).
      cbn. rewrite <- app_assoc in IH. exact IH.
Qed.

(** X7: every stage of the pipeline reads only artifacts an earlier stage
    has written: no action consumes an artifact before it is produced, and
    the first stage consumes none. *)
Theorem pipeline_artifacts_flow_forward (scope : App) (id e : string) :
  ∃ this,
    derive scope id e = Returned this
    ∧ length (pipeline_stages this) = 5
    ∧ ∀ before s after, pipeline_stages this = before ++ s :: after →
        ∀ a, a ∈ stage_inputs s → a ∈ concat (stage_outputs <$> before).
Proof.
  exists (declared scope id e). split; [apply derive_returns|].
  split; [vm_compute; reflexivity|].
  intros before s after Heq a Ha.
  apply (artifacts_flow_sound [] (pipeline_stages (declared scope id e)))
    with (s := s) (after := after); [vm_compute; reflexivity | exact Heq | exact Ha].
Qed.

Lemma Returned_inj {A : Type} (a b : A) : Returned a = Returned b → a = b.
Proof. intros H. injection H as ->. reflexivity. Defined.

Lemma pipeline_artifacts_flow_forward_witness :
  ∃ this create,
    derive plain_app "sle-infrastructure-dev" "dev" = Returned this
    ∧ pipeline_stages this !! 2 = Some create
    ∧ codepipeline.infraBuildOutput ∈ stage_inputs create
    ∧ codepipeline.infraBuildOutput
        ∈ concat (stage_outputs <$> take 2 (pipeline_stages this)).
Proof.
  destruct (pipeline_artifacts_flow_forward plain_app "sle-infrastructure-dev" "dev")
    as (this & Hd & Hlen & Hflow).
  destruct (pipeline_stages this) as [|s0 [|s1 [|s2 [|s3 [|s4 [|s5 l]]]]]] eqn:Hs;
    try discriminate Hlen.
  exists this, s2. rewrite Hs. split; [exact Hd|]. split; [reflexivity|].
  assert (Hin : codepipeline.infraBuildOutput ∈ stage_inputs s2).
  { pose proof (derive_returns plain_app "sle-infrastructure-dev" "dev") as Hr.
    rewrite Hd in Hr. apply Returned_inj in Hr. subst this.
    vm_compute in Hs. injection Hs as <- <- <- <- <-.
    vm_compute. apply list_elem_of_here. }
  split; [exact Hin|].
  exact (Hflow [s0; s1] s2 [s3; s4] eq_refl _ Hin).
Defined.

(** ** The construct tree *)




(** X6: the twelve construct ids of the stack are pairwise distinct, for
    every environment: a construct id identifies one construct. *)
Theorem construct_ids_distinct (scope : App) (id e : string) :
  ∃ this,
    derive scope id e = Returned this
    ∧ length (child_ids this) = 12
    ∧ NoDup (child_ids this).
Proof.
  exists (declared scope id e). split; [apply derive_returns|].
  split; [vm_compute; reflexivity|].
  apply (bool_decide_unpack (NoDup (child_ids (declared scope id e)))).
  vm_compute. exact I.
Qed.

(** ** Grants and the names they cover *)




(** X9: the table actions are granted to the pipeline role only, and only
    on the table the stack declares: the pattern is [table/<table name>] in
    the stack's region and account, without a wildcard. *)
Theorem table_grant_is_for_the_table (scope : App) (id e : string) :
  ∃ this table,
    derive scope id e = Returned this
    ∧ name_of this TableName = Some table
    ∧ ∀ a, a ∈ ["dynamodb:CreateTable"; "dynamodb:UpdateTable";
                "dynamodb:DescribeTable"; "dynamodb:DeleteTable";
                "dynamodb:TagResource"; "dynamodb:UntagResource";
                "dynamodb:UpdateContinuousBackups";
                "dynamodb:DescribeContinuousBackups"] →
        granted this "InfraCodePipelineExecutionRole" a
        = [Lit ("arn:aws:dynamodb:" +:+ appRegion scope +:+ ":" +:+ appAccount scope
                +:+ ":table/" +:+ table)]
        ∧ granted this "InfraCodeBuildServiceRole" a = [].
Proof.
  exists (declared scope id e), "school-licenses-table".
  split; [apply derive_returns|].
  split; [exact (name_of_declared scope id e TableName)|].
  intros a Ha.
  repeat (apply elem_of_cons in Ha as [-> | Ha]; [split; vm_compute; reflexivity|]).
  apply elem_of_nil in Ha. contradiction.
Qed.

Lemma table_grant_is_for_the_table_witness :
  ∃ this table,
    derive plain_app "sle-infrastructure-dev" "dev" = Returned this
    ∧ granted this "InfraCodePipelineExecutionRole" "dynamodb:DeleteTable"
      = [Lit ("arn:aws:dynamodb:us-east-1:123456789012:table/" +:+ table)]
    ∧ granted this "InfraCodeBuildServiceRole" "dynamodb:DeleteTable" = [].
Proof.
  destruct (table_grant_is_for_the_table plain_app "sle-infrastructure-dev" "dev")
    as (this & table & Hd & Hn & Hg).
  exists this, table. split; [exact Hd|].
  apply (Hg "dynamodb:DeleteTable").
  do 3 apply list_elem_of_further. apply list_elem_of_here.
Defined.






(** ** The operations on the stack under construction *)







(** ** Grants and the handles the pipeline holds *)



(** X17: the pipeline's role is granted what its actions need from the
    stack's own constructs: it may use exactly the connection the source
    action reads from and start exactly the project the build action runs,
    and the role the change-set action deploys with is the pipeline's role
    itself. *)
Theorem pipeline_role_reaches_its_actions (scope : App) (id e : string) :
  ∃ this role connection project,
    derive scope id e = Returned this
    ∧ pipeline_role this = Some role
    ∧ deployment_roles this = [role]
    ∧ source_connections this = [connection]
    ∧ granted this role "codestar-connections:UseConnection" = [connection]
    ∧ build_projects this = [project]
    ∧ granted this role "codebuild:StartBuild" = [projectArn project]
    ∧ lookup_child (children this) project ≫= physicalName
      = Some ("sle-" +:+ e +:+ "-infra-codebuild").
Proof.
  exists (declared scope id e), "InfraCodePipelineExecutionRole",
    (attrConnectionArn "InfraGitHubConnection"), "InfraCodeBuildProject".
  split; [apply derive_returns|].
  do 6 (split; [vm_compute; reflexivity|]).
  vm_compute. reflexivity.
Qed.
